(** * schedule_bot: a shallow embedding of [bot.py]

    The Telegram bot answers queries about a fixed two-week class schedule.
    This development embeds the functions of [bot.py] and proves the
    properties its specification states about them.

    Conventions of the embedding:
    - a Python [str] is the list of its Unicode code points ([pystr]);
      literals are written as UTF-8 text and decoded by [utf8];
    - a Python [int] is a [Z];
    - a [dict] is a [gmap]; the per-user [context.user_data] of the
      framework is one [dict] per user id;
    - a function that may raise returns a [result];
    - a handler (an [async def] taking [update] and [context]) is a state
      transformer over the invoking user's [user_data] and the list of
      calls it made on the chat transport. *)

From Stdlib Require Import ZArith NArith List Ascii String Lia DecimalString.
From stdpp Require Import base option list gmap.

Local Open Scope Z_scope.

(** ** Python strings *)

Abbreviation pystr := (list N).

Module Utf8.

Definition byte_of (c : ascii) : N := N_of_ascii c.

Fixpoint bytes (s : string) : list N :=
  match s with
  | EmptyString => []
  | String c s' => byte_of c :: bytes s'
  end.

(** Continuation byte: its six payload bits. *)
Definition cont (b : N) : N := N.land b 63.

Fixpoint decode (bs : list N) : pystr :=
  match bs with
  | [] => []
  | b0 :: r0 =>
    if (b0 <? 128)%N then b0 :: decode r0
    else match r0 with
    | [] => [b0]
    | b1 :: r1 =>
      if (b0 <? 224)%N then
        (N.land b0 31 * 64 + cont b1)%N :: decode r1
      else match r1 with
      | [] => [b0; b1]
      | b2 :: r2 =>
        if (b0 <? 240)%N then
          (N.land b0 15 * 4096 + cont b1 * 64 + cont b2)%N :: decode r2
        else match r2 with
        | [] => [b0; b1; b2]
        | b3 :: r3 =>
          (N.land b0 7 * 262144 + cont b1 * 4096 + cont b2 * 64 + cont b3)%N
            :: decode r3
        end
      end
    end
  end.

End Utf8.

(** The code points of a literal of the source file. *)
Definition utf8 (s : string) : pystr := Utf8.decode (Utf8.bytes s).

(** ["\n"] *)
Definition NL : pystr := [10%N].

(** [str.isspace] of one character: the code points CPython classifies as
    whitespace (bidirectional class WS, B or S, or category Zs). *)
Definition isspace (c : N) : bool :=
  (((9 <=? c) && (c <=? 13)) || ((28 <=? c) && (c <=? 32))
   || (c =? 133) || (c =? 160) || (c =? 5760)
   || ((8192 <=? c) && (c <=? 8202))
   || (c =? 8232) || (c =? 8233) || (c =? 8239) || (c =? 8287)
   || (c =? 12288))%N.

Fixpoint lstrip (s : pystr) : pystr :=
  match s with
  | [] => []
  | c :: s' => if isspace c then lstrip s' else s
  end.

Definition rstrip (s : pystr) : pystr := rev (lstrip (rev s)).

(** [s.strip()]: leading and trailing whitespace removed. *)
Definition strip (s : pystr) : pystr := rstrip (lstrip s).

(** [s.startswith(p)]; also what [re.match] does for a pattern [^p] whose
    [p] has no metacharacter. *)
Fixpoint startswith (p s : pystr) : bool :=
  match p, s with
  | [], _ => true
  | _ :: _, [] => false
  | a :: p', b :: s' => (a =? b)%N && startswith p' s'
  end.

(** [t in s] on strings: [t] occurs in [s] as a contiguous run. *)
Fixpoint contains (t s : pystr) : bool :=
  startswith t s ||
  match s with
  | [] => false
  | _ :: s' => contains t s'
  end.

(** [sep.join(parts)] *)
Definition str_join (sep : pystr) (parts : list pystr) : pystr :=
  match parts with
  | [] => []
  | p :: rest => p ++ flat_map (fun q => sep ++ q) rest
  end.

(** [str(n)] of an [int], as an f-string renders it. *)
Definition str_int (n : Z) : pystr :=
  utf8 (NilZero.string_of_int (Z.to_int n)).

(** [x or ""] for an optional string. *)
Definition or_empty (x : option pystr) : pystr := default [] x.

(** Truth value of a string: non-empty. *)
Definition truthy (s : pystr) : bool :=
  match s with [] => false | _ :: _ => true end.

(** The blocks Basic Latin (U+0000..U+007F) and Cyrillic (U+0400..U+045F),
    in which lowercasing maps each character to one character whatever
    surrounds it. *)
Definition latin_or_cyrillic (c : N) : bool :=
  ((c <? 128) || ((1024 <=? c) && (c <=? 1119)))%N.

(** Lowercase of a character of those blocks: A..Z and U+0410..U+042F
    move up by 32, U+0400..U+040F by 80, the rest is unchanged. *)
Definition lower_char (c : N) : N :=
  (if (65 <=? c) && (c <=? 90) then c + 32
   else if (1040 <=? c) && (c <=? 1071) then c + 32
   else if (1024 <=? c) && (c <=? 1039) then c + 80
   else c)%N.

(** A lowercase mapping for the other blocks that changes nothing: the
    instance at which the definitions below are run on concrete inputs. *)
Definition sample_unicode_lower (before : pystr) (c : N) (after : pystr) : pystr :=
  [c].

(** ** Exceptions *)

Inductive exn : Type :=
| IndexError
| AttributeError.

Inductive result (A : Type) : Type :=
| Ok (a : A)
| Raise (e : exn).

Arguments Ok {A} a.
Arguments Raise {A} e.

Definition rbind {A B} (r : result A) (k : A -> result B) : result B :=
  match r with
  | Ok a => k a
  | Raise e => Raise e
  end.

(** [seq[i]] on a list or tuple: negative indices count from the end,
    anything out of range raises [IndexError]. *)
Definition py_index {A} (l : list A) (i : Z) : result A :=
  let n := Z.of_nat (length l) in
  let j := if i <? 0 then i + n else i in
  if (j <? 0) || (n <=? j) then Raise IndexError
  else match l !! Z.to_nat j with
       | Some x => Ok x
       | None => Raise IndexError
       end.

#[global] Instance result_ret : MRet result := fun A a => Ok a.
#[global] Instance result_bind : MBind result := fun A B k r => rbind r k.

(** ** The chat transport, as the handlers use it *)

Inductive button : Type :=
| InlineKeyboardButton (text callback_data : pystr).

(** The calls a handler makes on the transport: [update.message.reply_text],
    [query.answer] and [query.edit_message_text]. *)
Inductive call : Type :=
| reply_text (text : pystr) (reply_markup : option (list (list button)))
    (parse_mode : option pystr)
| answer
| edit_message_text (text : pystr) (parse_mode : option pystr).

(** What a handler can touch: [context.user_data] of the invoking user and
    the calls made so far. *)
Record hstate : Type := HState {
  user_data : gmap pystr Z;
  sent : list call
}.

(** A handler body: it may change the state and may raise. *)
Definition M (A : Type) : Type := hstate -> result A * hstate.

#[global] Instance M_ret : MRet M := fun A a s => (Ok a, s).
#[global] Instance M_bind : MBind M := fun A B k m s =>
  match m s with
  | (Ok a, s') => k a s'
  | (Raise e, s') => (Raise e, s')
  end.

Definition read_user_data : M (gmap pystr Z) := fun s => (Ok (user_data s), s).

(** [context.user_data[k] = v] *)
Definition setitem (k : pystr) (v : Z) : M unit := fun s =>
  (Ok tt, {| user_data := <[k := v]> (user_data s); sent := sent s |}).

Definition send (c : call) : M unit := fun s =>
  (Ok tt, {| user_data := user_data s; sent := sent s ++ [c] |}).

Definition lift {A} (r : result A) : M A := fun s => (r, s).

Definition raise {A} (e : exn) : M A := fun s => (Raise e, s).

(** [await update.message.reply_text(text, ...)]. [update.message] is the
    new message of the update and [None] on every other update (an edited
    message, a button press): there the attribute access raises
    [AttributeError] and nothing is sent. *)
Definition message_reply_text (message_set : bool) (text : pystr)
    (reply_markup : option (list (list button))) (parse_mode : option pystr)
    : M unit :=
  if message_set then send (reply_text text reply_markup parse_mode)
  else raise AttributeError.

(** An inbound update: who sent it and what it carries. A message
    [/name a1 a2 ...] addressed to this bot arrives with
    [context.args = [a1; a2; ...]], as a new message ([Command]) or as the
    edit of an earlier message ([EditedCommand]); polling asks for all
    update types. *)
Inductive content : Type :=
| Command (name : pystr) (args : list pystr)
| EditedCommand (name : pystr) (args : list pystr)
| CallbackQuery (data : pystr).

Record Update : Type := MkUpdate {
  user_id : Z;
  first_name : pystr;
  payload : content
}.

(** Whether [update.message] is set. *)
Definition has_message (u : Update) : bool :=
  match payload u with
  | Command _ _ => true
  | EditedCommand _ _ | CallbackQuery _ => false
  end.

(** ** A sample [schedule_data], to run the definitions on *)

Definition sample_DAY_NAMES : list pystr :=
  [utf8 "Понедельник"; utf8 "Вторник"; utf8 "Среда"; utf8 "Четверг";
   utf8 "Пятница"; utf8 "Суббота"; utf8 "Воскресенье"].

Definition sample_DAY_NAMES_SHORT : list pystr :=
  [utf8 "Пн"; utf8 "Вт"; utf8 "Ср"; utf8 "Чт"; utf8 "Пт"; utf8 "Сб"; utf8 "Вс"].

Definition sample_get_schedule (week day : Z) : list (pystr * pystr) :=
  if (week =? 1) && (day =? 0) then
    [(utf8 "09:00", utf8 "Математика"); (utf8 "10:45", utf8 "Физика")]
  else if (week =? 2) && (day =? 2) then
    [(utf8 "12:30", utf8 "История")]
  else [].

(** Name tables too short for most days. *)
Definition other_DAY_NAMES : list pystr := [utf8 "Понедельник"].

Definition other_DAY_NAMES_SHORT : list pystr := [utf8 "Пн"; utf8 "??"].

(** A store in which user 7 has chosen week 2, and a button press and a
    rasp state of user 42. *)
Definition sample_store : gmap Z (gmap pystr Z) :=
  {[ 7 := {[ utf8 "week" := 2 ]} ]}.

Definition sample_press (data : pystr) : Update :=
  MkUpdate 42 (utf8 "Аня") (CallbackQuery data).

Definition sample_state : hstate := HState {[ utf8 "week" := 2 ]} [].

(** ** bot.py *)

(** [DEFAULT_WEEK = 1] *)
Definition DEFAULT_WEEK : Z := 1.

(** [BOT_TOKEN = os.environ.get("TELEGRAM_BOT_TOKEN", "")] *)
Definition BOT_TOKEN (environ : gmap pystr pystr) : pystr :=
  default [] (environ !! utf8 "TELEGRAM_BOT_TOKEN").

Definition get_user_week (ud : gmap pystr Z) : Z :=
  default DEFAULT_WEEK (ud !! utf8 "week").

(** The tuple [short] of [parse_day_arg]. *)
Definition short : list pystr :=
  [utf8 "пн"; utf8 "вт"; utf8 "ср"; utf8 "чт"; utf8 "пт"; utf8 "сб"; utf8 "вс"].

(** The loop [for i, name in enumerate(short): if name == arg: return i],
    entered at index [i] with [names] still to visit; falling off the end
    is [return None]. *)
Fixpoint parse_day_loop (i : Z) (names : list pystr) (arg : pystr) : option Z :=
  match names with
  | [] => None
  | name :: rest =>
    if decide (name = arg) then Some i else parse_day_loop (i + 1) rest arg
  end.

Definition MARKDOWN : option pystr := Some (utf8 "Markdown").

Definition start_text (first_name : pystr) (week : Z) : pystr :=
  utf8 "Привет, " ++ first_name ++ utf8 "!" ++ NL ++ NL
  ++ utf8 "Я бот с расписанием. Сейчас выбрана **" ++ str_int week
  ++ utf8 " неделя**." ++ NL ++ NL
  ++ utf8 "Команды:" ++ NL
  ++ utf8 "/rasp — расписание на сегодня" ++ NL
  ++ utf8 "/rasp пн, /rasp вт, … — расписание на выбранный день" ++ NL
  ++ utf8 "/week — выбрать неделю (I или II)".

(** In the handlers [message_set] says whether [update.message] is set. *)
Definition start (message_set : bool) (first_name : pystr) : M unit :=
  ud ← read_user_data;
  let week := get_user_week ud in
  message_reply_text message_set (start_text first_name week) None MARKDOWN.

Definition week_command (message_set : bool) : M unit :=
  let keyboard :=
    [[InlineKeyboardButton (utf8 "I неделя") (utf8 "week_1");
      InlineKeyboardButton (utf8 "II неделя") (utf8 "week_2")]] in
  ud ← read_user_data;
  let current := get_user_week ud in
  message_reply_text message_set
    (utf8 "Сейчас выбрана: **" ++ str_int current ++ utf8 " неделя**."
     ++ NL ++ utf8 "Выбери неделю:")
    (Some keyboard) MARKDOWN.

Definition week_callback (data : pystr) : M unit :=
  send answer;;
  text ← (if decide (data = utf8 "week_1") then
            setitem (utf8 "week") 1;; mret (utf8 "Выбрана **I неделя**.")
          else
            setitem (utf8 "week") 2;; mret (utf8 "Выбрана **II неделя**."));
  send (edit_message_text text MARKDOWN).

Definition USAGE : pystr :=
  utf8 "Неизвестный день. Напиши: /rasp пн, /rasp вт, /rasp ср, /rasp чт, /rasp пт, /rasp сб, /rasp вс".

Definition help_text : pystr :=
  utf8 "/start — приветствие" ++ NL
  ++ utf8 "/rasp — расписание на **сегодня** (день по реальному времени)" ++ NL
  ++ utf8 "/rasp пн, /rasp вт, … — расписание на выбранный день" ++ NL
  ++ utf8 "/week — выбрать неделю (I или II)" ++ NL
  ++ utf8 "/help — эта справка".

Definition help_command (message_set : bool) : M unit :=
  message_reply_text message_set help_text None MARKDOWN.

(** One entry of the comprehension
    [[f"🕐 {time}\n   {subject}" for time, subject in lessons]]. *)
Definition lesson_line (lesson : pystr * pystr) : pystr :=
  let '(time, subject) := lesson in
  utf8 "🕐 " ++ time ++ NL ++ utf8 "   " ++ subject.

(** The handlers [main] registers, by the function each one calls. *)
Inductive callback : Type :=
| cb_start | cb_week_command | cb_rasp_command | cb_help_command
| cb_week_callback.

Inductive handler : Type :=
| CommandHandler (command : pystr) (cb : callback)
| CallbackQueryHandler (cb : callback) (pattern : pystr).

Definition handlers : list handler :=
  [CommandHandler (utf8 "start") cb_start;
   CommandHandler (utf8 "week") cb_week_command;
   CommandHandler (utf8 "rasp") cb_rasp_command;
   CommandHandler (utf8 "help") cb_help_command;
   CallbackQueryHandler cb_week_callback (utf8 "^week_")].

(** [re.match(pattern, data)] for the patterns of this program: an
    optional [^] followed by literal characters. *)
Definition re_match (pattern data : pystr) : bool :=
  match pattern with
  | 94%N :: lit => startswith lit data
  | _ => startswith pattern data
  end.

(** Whether a [CallbackQueryHandler] with a pattern takes a button press:
    the pattern is tried on callback data that is not empty, and a press
    without data is taken as it is. *)
Definition callback_data_matches (pattern data : pystr) : bool :=
  match data with
  | [] => true
  | _ :: _ => re_match pattern data
  end.

Definition handler_callback (h : handler) : callback :=
  match h with
  | CommandHandler _ cb => cb
  | CallbackQueryHandler cb _ => cb
  end.

(** What [main] does, as the sequence of its effects. *)
Inductive effect : Type :=
| print (line : pystr)
| build_application (token : pystr)
| add_handler (h : handler)
| run_polling.

Definition main (environ : gmap pystr pystr) : list effect :=
  if negb (truthy (BOT_TOKEN environ)) then
    [print (utf8 "Ошибка: нужен токен бота.");
     print (utf8 "Создай бота у @BotFather в Telegram и задай TELEGRAM_BOT_TOKEN в .env")]
  else
    build_application (BOT_TOKEN environ)
    :: map add_handler handlers
    ++ [print (utf8 "Бот запущен. Остановка: Ctrl+C"); run_polling].

(** ** The layout the specification gives for a day's text *)

(** The header line: full day name, short code and week label, closed by
    a blank line. *)
Definition header_line (day_name day_short week_label : pystr) : pystr :=
  utf8 "📅 " ++ day_name ++ utf8 " (" ++ day_short ++ utf8 "), "
  ++ week_label ++ utf8 " неделя" ++ NL ++ NL.

(** The block of one schedule entry: its time, then its subject. *)
Definition entry_block (time subject : pystr) : pystr :=
  utf8 "🕐 " ++ time ++ NL ++ utf8 "   " ++ subject.

(** Blocks one after another, a blank line between two consecutive ones. *)
Fixpoint blank_line_separated (blocks : list pystr) : pystr :=
  match blocks with
  | [] => []
  | b :: rest =>
    match rest with
    | [] => b
    | _ :: _ => b ++ NL ++ NL ++ blank_line_separated rest
    end
  end.

Section Bot.

(** The runtime's lowercase mapping of a character outside Basic Latin
    and Cyrillic, given the characters before and after it (it may yield
    several characters, and that of capital sigma depends on its
    neighbours). *)
Variable unicode_lower : pystr -> N -> pystr -> pystr.

(** [s.lower()], character by character; [before] holds the characters
    already passed. *)
Fixpoint lower_from (before s : pystr) : pystr :=
  match s with
  | [] => []
  | c :: after =>
    (if latin_or_cyrillic c then [lower_char c]
     else unicode_lower before c after)
    ++ lower_from (before ++ [c]) after
  end.

Definition str_lower (s : pystr) : pystr := lower_from [] s.

(** Modelled from the spec: [schedule_data.get_schedule], which is not
    among the sources. It maps (week, day) to the ordered (time, subject)
    pairs of that slot, is pure and has no failure mode; an empty slot is
    the empty sequence. *)
Variable get_schedule : Z -> Z -> list (pystr * pystr).

(** Modelled from the spec: [schedule_data.DAY_NAMES] and
    [schedule_data.DAY_NAMES_SHORT], which are not among the sources:
    the full and the short day names, subscripted by the day index. *)
Variable DAY_NAMES : list pystr.
Variable DAY_NAMES_SHORT : list pystr.

Definition format_day_schedule (week_num day : Z) : result pystr :=
  let lessons := get_schedule week_num day in
  day_name ← py_index DAY_NAMES day;
  let week_label := if decide (week_num = 1) then utf8 "I" else utf8 "II" in
  day_short ← py_index DAY_NAMES_SHORT day;
  let header :=
    utf8 "📅 " ++ day_name ++ utf8 " (" ++ day_short ++ utf8 "), "
    ++ week_label ++ utf8 " неделя" ++ NL ++ NL in
  match lessons with
  | [] => Ok (header ++ utf8 "Занятий нет.")
  | _ :: _ =>
    let lines := map lesson_line lessons in
    Ok (header ++ str_join (NL ++ NL) lines)
  end.

Definition parse_day_arg (arg : option pystr) : option Z :=
  let arg := str_lower (strip (or_empty arg)) in
  parse_day_loop 0 short arg.

(** [today] is the value of [datetime.now().weekday()] at the call. *)
Definition rasp_command (message_set : bool) (args : list pystr) (today : Z)
    : M unit :=
  ud ← read_user_data;
  let week := get_user_week ud in
  let finish (day : Z) : M unit :=
    text ← lift (format_day_schedule week day);
    message_reply_text message_set text None None in
  match args with
  | arg0 :: _ =>
    match parse_day_arg (Some arg0) with
    | None => message_reply_text message_set USAGE None None
    | Some day => finish day
    end
  | [] => finish today
  end.

(** What the tail of [rasp_command] computes on a state, once the day is
    known. *)
Definition rasp_reply (message_set : bool) (day : Z) (s : hstate)
    : result unit * hstate :=
  match format_day_schedule (get_user_week (user_data s)) day with
  | Ok text => message_reply_text message_set text None None s
  | Raise e => (Raise e, s)
  end.

(** Whether a registered handler takes an update. A [CommandHandler]
    takes new and edited messages and compares the command without regard
    to letter case. *)
Definition check_update (u : Update) (h : handler) : bool :=
  match h, payload u with
  | CommandHandler command _, Command name _
  | CommandHandler command _, EditedCommand name _ =>
    bool_decide (str_lower command = str_lower name)
  | CallbackQueryHandler _ pattern, CallbackQuery data =>
    callback_data_matches pattern data
  | _, _ => false
  end.

Definition run_callback (cb : callback) (u : Update) (today : Z) : M unit :=
  match cb, payload u with
  | cb_start, _ => start (has_message u) (first_name u)
  | cb_week_command, _ => week_command (has_message u)
  | cb_rasp_command, Command _ args
  | cb_rasp_command, EditedCommand _ args =>
    rasp_command (has_message u) args today
  | cb_help_command, _ => help_command (has_message u)
  | cb_week_callback, CallbackQuery data => week_callback data
  | _, _ => mret tt
  end.

(** The framework's dispatch of one update: the first registered handler
    that takes it runs on the invoking user's [user_data] (created empty
    on first access); an exception of the handler is caught and logged by
    the framework. Returns the new store, the calls made and the exception
    if one was raised. *)
Definition process_update (today : Z) (u : Update)
    (store : gmap Z (gmap pystr Z))
    : gmap Z (gmap pystr Z) * list call * option exn :=
  match find (check_update u) handlers with
  | None => (store, [], None)
  | Some h =>
    let ud := default ∅ (store !! user_id u) in
    let '(r, s) := run_callback (handler_callback h) u today (HState ud []) in
    (<[user_id u := user_data s]> store, sent s,
     match r with Ok _ => None | Raise e => Some e end)
  end.

(** The event loop over a finite sequence of updates, each paired with
    the weekday of the clock when it is handled. *)
Fixpoint run_updates (updates : list (Z * Update))
    (store : gmap Z (gmap pystr Z)) : gmap Z (gmap pystr Z) :=
  match updates with
  | [] => store
  | (today, u) :: rest => run_updates rest (process_update today u store).1.1
  end.

(** The week stored for a user, if any. *)
Definition stored_week (store : gmap Z (gmap pystr Z)) (uid : Z) : option Z :=
  store !! uid ≫= fun ud => ud !! utf8 "week".

(** [get_user_week] as a handler run for user [uid] sees it. *)
Definition user_week (store : gmap Z (gmap pystr Z)) (uid : Z) : Z :=
  get_user_week (default ∅ (store !! uid)).

(** The weeks a store holds are 1 or 2. *)
Definition weeks_valid (store : gmap Z (gmap pystr Z)) : Prop :=
  forall uid w, stored_week store uid = Some w -> w = 1 \/ w = 2.

(** ** Strings: what [startswith], [contains] and [str_join] compute *)

Lemma startswith_spec (p s : pystr) :
  startswith p s = true <-> exists k, s = p ++ k.
Proof.
  revert s. induction p as [|a p IH]; intros s; simpl.
  - split; [intros _; exists s; reflexivity | reflexivity].
  - destruct s as [|b s].
    + split; [discriminate | intros [k Hk]; discriminate].
    + rewrite andb_true_iff, N.eqb_eq, IH. split.
      * intros [-> [k ->]]. exists k. reflexivity.
      * intros [k Hk]. injection Hk as -> ->. split; [reflexivity | exists k; reflexivity].
Qed.

Lemma contains_spec (t s : pystr) :
  contains t s = true <-> exists pre post, s = pre ++ t ++ post.
Proof.
  induction s as [|b s IH].
  - simpl. rewrite orb_false_r, startswith_spec. split.
    + intros [k Hk]. exists [], k. exact Hk.
    + intros [pre [post H]]. destruct pre; [exists post; exact H | discriminate].
  - cbn [contains]. rewrite orb_true_iff, startswith_spec, IH. split.
    + intros [[k Hk] | [pre [post H]]].
      * exists [], k. exact Hk.
      * exists (b :: pre), post. rewrite H. reflexivity.
    + intros [pre [post H]]. destruct pre as [|c pre].
      * left. exists post. exact H.
      * right. injection H as _ H. exists pre, post. exact H.
Qed.

Lemma contains_middle (pre t post : pystr) : contains t (pre ++ t ++ post) = true.
Proof. apply contains_spec. exists pre, post. reflexivity. Qed.

(** ** The lookup loop of [parse_day_arg] *)

Lemma parse_day_loop_None (i : Z) (names : list pystr) (arg : pystr) :
  parse_day_loop i names arg = None <-> arg ∉ names.
Proof.
  revert i. induction names as [|name rest IH]; intros i; simpl.
  - split; [intros _; apply not_elem_of_nil | reflexivity].
  - rewrite not_elem_of_cons. destruct (decide (name = arg)) as [->|Hne].
    + split; [discriminate | intros [H _]; congruence].
    + rewrite IH. split; [intros H; split; [congruence | exact H] | intros [_ H]; exact H].
Qed.

Lemma parse_day_loop_Some (i j : Z) (names : list pystr) (arg : pystr) :
  NoDup names ->
  parse_day_loop i names arg = Some j <->
  i <= j /\ names !! Z.to_nat (j - i) = Some arg.
Proof.
  intros Hnd. revert i. induction Hnd as [|name rest Hnotin Hnd IH]; intros i; simpl.
  - split; [discriminate | intros [_ H]; discriminate].
  - destruct (decide (name = arg)) as [->|Hne].
    + split.
      * intros [= ->]. split; [lia | ]. rewrite Z.sub_diag. reflexivity.
      * intros [Hle Hlk]. destruct (Z.to_nat (j - i)) as [|k] eqn:Hk.
        -- f_equal. lia.
        -- simpl in Hlk. exfalso. apply Hnotin. eapply list_elem_of_lookup_2, Hlk.
    + rewrite IH. split.
      * intros [Hle Hlk]. split; [lia | ].
        replace (Z.to_nat (j - i)) with (S (Z.to_nat (j - (i + 1)))) by lia.
        exact Hlk.
      * intros [Hle Hlk]. destruct (Z.to_nat (j - i)) as [|k] eqn:Hk.
        -- simpl in Hlk. congruence.
        -- simpl in Hlk. split; [lia | ].
           replace (Z.to_nat (j - (i + 1))) with k by lia. exact Hlk.
Qed.

Lemma short_NoDup : NoDup short.
Proof. apply (bool_decide_unpack _). vm_compute. exact I. Qed.

Lemma short_length : length short = 7%nat.
Proof. reflexivity. Qed.

(** ** The day parser *)

(** C1. [parse_day_arg] returns the index [i], between 0 and 6, exactly
    when the argument, stripped and lowercased, is the [i]-th token of
    [short]; it returns [None] exactly when the normalised argument is none
    of the seven tokens; the empty string and a missing argument give
    [None]. *)
Theorem parse_day_arg_exact (arg : option pystr) :
  let norm := str_lower (strip (or_empty arg)) in
  (forall i : Z,
      parse_day_arg arg = Some i <->
      0 <= i <= 6 /\ short !! Z.to_nat i = Some norm)
  /\ (parse_day_arg arg = None <-> norm ∉ short)
  /\ parse_day_arg (Some []) = None
  /\ parse_day_arg None = None.
Proof.
  intros norm. split; [| split; [| split]].
  - intros i. unfold parse_day_arg. fold norm.
    rewrite (parse_day_loop_Some 0 i short norm short_NoDup), Z.sub_0_r.
    split.
    + intros [Hle Hlk]. split; [| exact Hlk]. split; [exact Hle |].
      apply lookup_lt_Some in Hlk. rewrite short_length in Hlk. lia.
    + intros [[Hle _] Hlk]. split; assumption.
  - unfold parse_day_arg. fold norm. apply parse_day_loop_None.
  - reflexivity.
  - reflexivity.
Qed.

(** ** The formatter *)

Lemma py_index_lookup {A} (l : list A) (i : Z) (x : A) :
  0 <= i -> l !! Z.to_nat i = Some x -> py_index l i = Ok x.
Proof.
  intros Hi Hlk. unfold py_index.
  pose proof (lookup_lt_Some _ _ _ Hlk) as Hlt.
  destruct (i <? 0) eqn:Hneg; [apply Z.ltb_lt in Hneg; lia |].
  rewrite Hneg. simpl.
  destruct (Z.of_nat (length l) <=? i) eqn:Hge; [apply Z.leb_le in Hge; lia |].
  simpl. rewrite Hlk. reflexivity.
Qed.

Lemma day_lookup (l : list pystr) (day : Z) :
  (7 <= length l)%nat -> 0 <= day <= 6 -> exists x, l !! Z.to_nat day = Some x.
Proof.
  intros Hlen Hday. apply lookup_lt_is_Some_2. lia.
Qed.

Lemma str_join_blank_lines (blocks : list pystr) :
  str_join (NL ++ NL) blocks = blank_line_separated blocks.
Proof.
  induction blocks as [|b rest IH]; [reflexivity |].
  destruct rest as [|r rest'].
  - simpl. apply app_nil_r.
  - change (blank_line_separated (b :: r :: rest'))
      with (b ++ NL ++ NL ++ blank_line_separated (r :: rest')).
    rewrite <- IH. unfold str_join. cbn [flat_map].
    rewrite <- !app_assoc. reflexivity.
Qed.

(** The text [format_day_schedule] returns once both subscripts succeed. *)
Lemma format_day_schedule_Ok (week day : Z) (day_name day_short : pystr) :
  0 <= day ->
  DAY_NAMES !! Z.to_nat day = Some day_name ->
  DAY_NAMES_SHORT !! Z.to_nat day = Some day_short ->
  format_day_schedule week day =
  Ok (header_line day_name day_short
        (if decide (week = 1) then utf8 "I" else utf8 "II")
      ++ match get_schedule week day with
         | [] => utf8 "Занятий нет."
         | _ :: _ =>
           blank_line_separated (map lesson_line (get_schedule week day))
         end).
Proof.
  intros Hday Hn Hs. unfold format_day_schedule.
  rewrite (py_index_lookup _ _ _ Hday Hn), (py_index_lookup _ _ _ Hday Hs).
  cbn [mbind result_bind rbind]. unfold header_line.
  destruct (get_schedule week day) as [|l ls].
  - rewrite <- !app_assoc. reflexivity.
  - rewrite str_join_blank_lines, <- !app_assoc. reflexivity.
Qed.

(** C2. For a week in {1, 2} and a day in 0..6, with the seven day names
    and short codes in place, [format_day_schedule] returns a text (it does
    not raise); the text opens with the header line and contains the full
    day name, the short code and the week label, which is I for week 1 and
    II for week 2. *)
Theorem format_day_schedule_names_week (week day : Z) :
  (7 <= length DAY_NAMES)%nat -> (7 <= length DAY_NAMES_SHORT)%nat ->
  week = 1 \/ week = 2 -> 0 <= day <= 6 ->
  exists out day_name day_short week_label body,
    format_day_schedule week day = Ok out
    /\ py_index DAY_NAMES day = Ok day_name
    /\ py_index DAY_NAMES_SHORT day = Ok day_short
    /\ (week = 1 -> week_label = utf8 "I")
    /\ (week = 2 -> week_label = utf8 "II")
    /\ out = header_line day_name day_short week_label ++ body
    /\ contains day_name out = true
    /\ contains day_short out = true
    /\ contains week_label out = true.
Proof.
  intros Hn Hs Hweek Hday.
  destruct (day_lookup _ _ Hn Hday) as [day_name Hname].
  destruct (day_lookup _ _ Hs Hday) as [day_short Hshort].
  pose proof (format_day_schedule_Ok week day _ _ (proj1 Hday) Hname Hshort) as Hout.
  set (week_label := if decide (week = 1) then utf8 "I" else utf8 "II") in *.
  set (body := match get_schedule week day with
               | [] => utf8 "Занятий нет."
               | _ :: _ => blank_line_separated (map lesson_line (get_schedule week day))
               end) in *.
  exists (header_line day_name day_short week_label ++ body),
    day_name, day_short, week_label, body.
  split; [exact Hout |].
  split; [apply py_index_lookup; [lia | exact Hname] |].
  split; [apply py_index_lookup; [lia | exact Hshort] |].
  split; [intros ->; reflexivity |].
  split; [intros ->; reflexivity |].
  split; [reflexivity |].
  unfold header_line. split; [| split]; apply contains_spec.
  - exists (utf8 "📅 "),
      (utf8 " (" ++ day_short ++ utf8 "), " ++ week_label ++ utf8 " неделя"
       ++ NL ++ NL ++ body).
    rewrite <- !app_assoc. reflexivity.
  - exists (utf8 "📅 " ++ day_name ++ utf8 " ("),
      (utf8 "), " ++ week_label ++ utf8 " неделя" ++ NL ++ NL ++ body).
    rewrite <- !app_assoc. reflexivity.
  - exists (utf8 "📅 " ++ day_name ++ utf8 " (" ++ day_short ++ utf8 "), "),
      (utf8 " неделя" ++ NL ++ NL ++ body).
    rewrite <- !app_assoc. reflexivity.
Qed.

(** C5. For a week in {1, 2} and a day in 0..6 whose names are
    [day_name] and [day_short], the text is the header line followed by
    the no-lessons sentence when the store has no entry for the slot, and
    otherwise by one block per entry, time then subject, in the stored
    order, with a blank line between consecutive blocks. *)
Theorem format_day_schedule_layout (week day : Z) (day_name day_short : pystr) :
  week = 1 \/ week = 2 -> 0 <= day <= 6 ->
  DAY_NAMES !! Z.to_nat day = Some day_name ->
  DAY_NAMES_SHORT !! Z.to_nat day = Some day_short ->
  exists week_label,
    (week = 1 -> week_label = utf8 "I")
    /\ (week = 2 -> week_label = utf8 "II")
    /\ (get_schedule week day = [] ->
        format_day_schedule week day =
        Ok (header_line day_name day_short week_label ++ utf8 "Занятий нет."))
    /\ (get_schedule week day <> [] ->
        exists blocks : list pystr,
          length blocks = length (get_schedule week day)
          /\ (forall (i : nat) (time subject : pystr),
                 get_schedule week day !! i = Some (time, subject) ->
                 blocks !! i = Some (entry_block time subject))
          /\ format_day_schedule week day =
             Ok (header_line day_name day_short week_label
                 ++ blank_line_separated blocks)).
Proof.
  intros Hweek Hday Hname Hshort.
  exists (if decide (week = 1) then utf8 "I" else utf8 "II").
  split; [intros ->; reflexivity |].
  split; [intros ->; reflexivity |].
  rewrite (format_day_schedule_Ok week day _ _ (proj1 Hday) Hname Hshort).
  split.
  - intros ->. reflexivity.
  - intros Hne. exists (map lesson_line (get_schedule week day)).
    split; [apply length_map |].
    split.
    + intros i time subject Hi. rewrite list_lookup_fmap_Some.
      exists (time, subject). split; [reflexivity | exact Hi].
    + destruct (get_schedule week day); [congruence | reflexivity].
Qed.

(** ** The handlers, run on a state *)

Lemma week_callback_run (data : pystr) (s : hstate) :
  week_callback data s =
  (Ok tt,
   HState (<[utf8 "week" := if decide (data = utf8 "week_1") then 1 else 2]>
             (user_data s))
          (sent s ++ [answer;
                      edit_message_text
                        (if decide (data = utf8 "week_1")
                         then utf8 "Выбрана **I неделя**."
                         else utf8 "Выбрана **II неделя**.")
                        MARKDOWN])).
Proof.
  destruct s as [ud out].
  cbv [week_callback mbind M_bind mret M_ret send setitem user_data sent].
  destruct (decide (data = utf8 "week_1"));
    cbv [user_data sent]; rewrite <- app_assoc; reflexivity.
Qed.

Lemma message_reply_text_run (message_set : bool) (text : pystr)
    (reply_markup : option (list (list button))) (parse_mode : option pystr)
    (s : hstate) :
  message_reply_text message_set text reply_markup parse_mode s =
  if message_set
  then (Ok tt, HState (user_data s)
                 (sent s ++ [reply_text text reply_markup parse_mode]))
  else (Raise AttributeError, s).
Proof. destruct message_set; reflexivity. Qed.

Lemma rasp_command_run (message_set : bool) (args : list pystr) (today : Z)
    (s : hstate) :
  rasp_command message_set args today s =
  match args with
  | arg0 :: _ =>
    match parse_day_arg (Some arg0) with
    | None => message_reply_text message_set USAGE None None s
    | Some day => rasp_reply message_set day s
    end
  | [] => rasp_reply message_set today s
  end.
Proof.
  destruct s as [ud out].
  cbv [rasp_command rasp_reply mbind M_bind read_user_data lift user_data sent].
  destruct args as [|arg0 rest].
  - destruct (format_day_schedule (get_user_week ud) today); reflexivity.
  - destruct (parse_day_arg (Some arg0)) as [day|]; [| reflexivity].
    destruct (format_day_schedule (get_user_week ud) day); reflexivity.
Qed.

Lemma message_reply_text_user_data (message_set : bool) (text : pystr)
    (reply_markup : option (list (list button))) (parse_mode : option pystr)
    (s : hstate) :
  user_data (message_reply_text message_set text reply_markup parse_mode s).2
  = user_data s.
Proof. destruct message_set; reflexivity. Qed.

Lemma rasp_reply_user_data (message_set : bool) (day : Z) (s : hstate) :
  user_data (rasp_reply message_set day s).2 = user_data s.
Proof.
  unfold rasp_reply.
  destruct (format_day_schedule (get_user_week (user_data s)) day);
    [apply message_reply_text_user_data | reflexivity].
Qed.

Lemma rasp_command_user_data (message_set : bool) (args : list pystr)
    (today : Z) (s : hstate) :
  user_data (rasp_command message_set args today s).2 = user_data s.
Proof.
  rewrite rasp_command_run. destruct args as [|arg0 rest].
  - apply rasp_reply_user_data.
  - destruct (parse_day_arg (Some arg0));
      [apply rasp_reply_user_data | apply message_reply_text_user_data].
Qed.

(** Only [week_callback] writes [user_data], and it writes the key
    [week] with 1 or 2. *)
Lemma run_callback_user_data (cb : callback) (u : Update) (today : Z) (s : hstate) :
  user_data (run_callback cb u today s).2 = user_data s
  \/ exists data,
       cb = cb_week_callback /\ payload u = CallbackQuery data
       /\ user_data (run_callback cb u today s).2 =
          <[utf8 "week" := if decide (data = utf8 "week_1") then 1 else 2]>
            (user_data s).
Proof.
  destruct cb, (payload u) as [name args|name args|data] eqn:Hp;
    unfold run_callback, has_message; rewrite ?Hp;
    try (left; reflexivity); try (left; apply rasp_command_user_data).
  right. exists data. rewrite week_callback_run. auto.
Qed.

(** ** Dispatch *)

Lemma find_callback_query (u : Update) (data : pystr) :
  payload u = CallbackQuery data ->
  find (check_update u) handlers =
  if callback_data_matches (utf8 "^week_") data
  then Some (CallbackQueryHandler cb_week_callback (utf8 "^week_"))
  else None.
Proof.
  intros Hp. cbv [find handlers check_update]. rewrite Hp. reflexivity.
Qed.

Lemma callback_data_matches_week (data : pystr) :
  callback_data_matches (utf8 "^week_") data = true
  <-> data = [] \/ re_match (utf8 "^week_") data = true.
Proof.
  destruct data as [|c data]; cbn [callback_data_matches].
  - split; [left; reflexivity | reflexivity].
  - split; [right; assumption | intros [H|H]; [discriminate H | exact H]].
Qed.

Lemma find_week_callback (u : Update) (h : handler) :
  find (check_update u) handlers = Some h ->
  handler_callback h = cb_week_callback ->
  exists data, payload u = CallbackQuery data
               /\ (data = [] \/ re_match (utf8 "^week_") data = true).
Proof.
  intros Hfind Hcb. apply find_some in Hfind as [Hin Hcheck].
  unfold handlers in Hin. simpl in Hin.
  destruct Hin as [<-|[<-|[<-|[<-|[<-|[]]]]]]; try discriminate Hcb.
  unfold check_update in Hcheck.
  destruct (payload u) as [| |data]; [discriminate | discriminate |].
  exists data. split; [reflexivity | apply callback_data_matches_week, Hcheck].
Qed.

Lemma process_update_week_button (today : Z) (u : Update)
    (store : gmap Z (gmap pystr Z)) (data : pystr) :
  payload u = CallbackQuery data ->
  re_match (utf8 "^week_") data = true ->
  process_update today u store =
  (<[user_id u :=
       <[utf8 "week" := if decide (data = utf8 "week_1") then 1 else 2]>
         (default ∅ (store !! user_id u))]> store,
   [answer;
    edit_message_text
      (if decide (data = utf8 "week_1")
       then utf8 "Выбрана **I неделя**."
       else utf8 "Выбрана **II неделя**.")
      MARKDOWN],
   None).
Proof.
  intros Hp Hm. unfold process_update.
  rewrite (find_callback_query u data Hp).
  rewrite (proj2 (callback_data_matches_week data) (or_intror Hm)).
  cbv [handler_callback run_callback]. rewrite Hp, week_callback_run.
  reflexivity.
Qed.

Lemma stored_week_insert_same (store : gmap Z (gmap pystr Z)) (uid : Z) :
  stored_week (<[uid := default ∅ (store !! uid)]> store) uid
  = stored_week store uid.
Proof.
  unfold stored_week. rewrite lookup_insert_eq.
  destruct (store !! uid); reflexivity.
Qed.

(** One dispatched update leaves every stored week as it was, except
    that a week button press stores 1 or 2 for the invoking user. *)
Lemma process_update_stored_week (today : Z) (u : Update)
    (store : gmap Z (gmap pystr Z)) (uid : Z) :
  stored_week (process_update today u store).1.1 uid = stored_week store uid
  \/ (uid = user_id u
      /\ (exists data, payload u = CallbackQuery data
                       /\ (data = [] \/ re_match (utf8 "^week_") data = true))
      /\ (stored_week (process_update today u store).1.1 uid = Some 1
          \/ stored_week (process_update today u store).1.1 uid = Some 2)).
Proof.
  unfold process_update.
  destruct (find (check_update u) handlers) as [h|] eqn:Hfind; [| left; reflexivity].
  pose proof (run_callback_user_data (handler_callback h) u today
                (HState (default ∅ (store !! user_id u)) [])) as Hrun.
  destruct (run_callback (handler_callback h) u today
              (HState (default ∅ (store !! user_id u)) [])) as [r s'].
  cbn [fst snd user_data] in *.
  destruct (decide (uid = user_id u)) as [->|Hne].
  - destruct Hrun as [->|[data [Hcb [Hp ->]]]].
    + left. apply stored_week_insert_same.
    + right. split; [reflexivity |]. split.
      * destruct (find_week_callback u h Hfind Hcb) as [data' [Hp' Hm]].
        exists data'. auto.
      * unfold stored_week. rewrite lookup_insert_eq. cbn [mbind option_bind].
        rewrite lookup_insert_eq. destruct (decide (data = utf8 "week_1")); auto.
  - left. unfold stored_week. rewrite lookup_insert_ne by congruence. reflexivity.
Qed.

Lemma process_update_other_user (today : Z) (u : Update)
    (store : gmap Z (gmap pystr Z)) (uid : Z) :
  uid <> user_id u ->
  (process_update today u store).1.1 !! uid = store !! uid.
Proof.
  intros Hne. unfold process_update.
  destruct (find (check_update u) handlers) as [h|]; [| reflexivity].
  destruct (run_callback (handler_callback h) u today
              (HState (default ∅ (store !! user_id u)) [])) as [r s'].
  cbn [fst]. rewrite lookup_insert_ne by congruence. reflexivity.
Qed.

Lemma user_week_stored (store : gmap Z (gmap pystr Z)) (uid : Z) :
  user_week store uid = default DEFAULT_WEEK (stored_week store uid).
Proof.
  unfold user_week, stored_week, get_user_week.
  destruct (store !! uid) as [ud|]; reflexivity.
Qed.

Lemma weeks_valid_process_update (today : Z) (u : Update)
    (store : gmap Z (gmap pystr Z)) :
  weeks_valid store -> weeks_valid (process_update today u store).1.1.
Proof.
  intros Hv uid w Hw.
  destruct (process_update_stored_week today u store uid) as [Heq|[_ [_ [H|H]]]].
  - rewrite Heq in Hw. eapply Hv, Hw.
  - rewrite H in Hw. left. congruence.
  - rewrite H in Hw. right. congruence.
Qed.

Lemma weeks_valid_run_updates (updates : list (Z * Update))
    (store : gmap Z (gmap pystr Z)) :
  weeks_valid store -> weeks_valid (run_updates updates store).
Proof.
  revert store. induction updates as [|[today u] rest IH]; intros store Hv.
  - exact Hv.
  - cbn [run_updates]. apply IH, weeks_valid_process_update, Hv.
Qed.

Lemma strip_short : Forall (fun t => strip t = t) short.
Proof. repeat constructor. Qed.

Lemma str_lower_short : Forall (fun t => str_lower t = t) short.
Proof. repeat constructor. Qed.


Lemma parse_day_arg_token (d : nat) (token : pystr) :
  short !! d = Some token ->
  parse_day_arg (Some token) = Some (Z.of_nat d).
Proof.
  intros Hlk. unfold parse_day_arg.
  change (or_empty (Some token)) with token.
  assert (token ∈ short) as Hin by (eapply list_elem_of_lookup_2, Hlk).
  pose proof strip_short as Hstrip. rewrite Forall_forall in Hstrip.
  pose proof str_lower_short as Hlow. rewrite Forall_forall in Hlow.
  rewrite (Hstrip token Hin), (Hlow token Hin).
  apply (parse_day_loop_Some _ _ _ _ short_NoDup). split; [lia |].
  rewrite Z.sub_0_r, Nat2Z.id. exact Hlk.
Qed.



(** ** The session state *)

(** C3. A user with no stored week reads week 1. After the week button
    sets week [w] (1 by [week_1], 2 by [week_2]) for the invoking user,
    that user reads [w], and every other user's stored data is as
    before. *)
Theorem week_selection_per_user (today : Z) (u : Update)
    (store : gmap Z (gmap pystr Z)) (data : pystr) (w : Z) :
  payload u = CallbackQuery data ->
  (w = 1 /\ data = utf8 "week_1") \/ (w = 2 /\ data = utf8 "week_2") ->
  (forall uid, stored_week store uid = None -> user_week store uid = 1)
  /\ user_week (process_update today u store).1.1 (user_id u) = w
  /\ (forall uid, uid <> user_id u ->
        (process_update today u store).1.1 !! uid = store !! uid
        /\ stored_week (process_update today u store).1.1 uid
           = stored_week store uid
        /\ user_week (process_update today u store).1.1 uid
           = user_week store uid).
Proof.
  intros Hp Hw. split; [| split].
  - intros uid Hnone. rewrite user_week_stored, Hnone. reflexivity.
  - assert (re_match (utf8 "^week_") data = true) as Hm
        by (destruct Hw as [[_ ->]|[_ ->]]; reflexivity).
    rewrite (process_update_week_button today u store data Hp Hm).
    cbn [fst]. unfold user_week, get_user_week.
    rewrite lookup_insert_eq. cbn [from_option id]. rewrite lookup_insert_eq.
    destruct Hw as [[-> ->]|[-> ->]]; reflexivity.
  - intros uid Hne.
    pose proof (process_update_other_user today u store uid Hne) as Hsame.
    split; [exact Hsame |].
    unfold user_week, stored_week. rewrite Hsame. split; reflexivity.
Qed.

(** C6. In every store reached from the empty one by handling updates,
    a stored week is 1 or 2 and every user reads 1 or 2; handling one more
    update never removes a stored week, and changes a stored week only for
    the user whose button press went to [week_callback] (its data starts
    with [week_], or it carries no data), to 1 or 2. *)
Theorem week_invariant (updates : list (Z * Update)) (today : Z) (u : Update) :
  let store := run_updates updates ∅ in
  let store' := (process_update today u store).1.1 in
  weeks_valid store
  /\ (forall uid, user_week store uid = 1 \/ user_week store uid = 2)
  /\ weeks_valid store'
  /\ (forall uid, is_Some (stored_week store uid) ->
                  is_Some (stored_week store' uid))
  /\ (forall uid, stored_week store' uid <> stored_week store uid ->
        uid = user_id u
        /\ (exists data, payload u = CallbackQuery data
                         /\ (data = [] \/ re_match (utf8 "^week_") data = true))
        /\ (stored_week store' uid = Some 1 \/ stored_week store' uid = Some 2)).
Proof.
  intros store. cbv zeta.
  assert (weeks_valid store) as Hv.
  { apply weeks_valid_run_updates. intros uid w Hw.
    unfold stored_week in Hw. rewrite lookup_empty in Hw. discriminate Hw. }
  split; [exact Hv |].
  split.
  { intros uid. rewrite user_week_stored.
    destruct (stored_week store uid) as [w|] eqn:Hw; [apply (Hv uid w Hw) | left; reflexivity]. }
  split; [apply weeks_valid_process_update, Hv |].
  split.
  - intros uid Hset.
    destruct (process_update_stored_week today u store uid) as [Heq|[_ [_ [H|H]]]].
    + rewrite Heq. exact Hset.
    + rewrite H. eauto.
    + rewrite H. eauto.
  - intros uid Hchg.
    destruct (process_update_stored_week today u store uid) as [Heq|H];
      [contradiction | exact H].
Qed.

(** ** The rasp handler *)


(** C8. With no argument on a day whose weekday index is [d], rasp does
    exactly what it does with the [d]-th token as its argument, whatever
    week is selected and whether or not the update carries a new message:
    both reply with [format_day_schedule] of the selected week and [d]. *)
Theorem rasp_today_same_as_token (message_set : bool) (d : nat)
    (token : pystr) (today' : Z) (s : hstate) :
  short !! d = Some token ->
  rasp_command message_set [] (Z.of_nat d) s
  = rasp_command message_set [token] today' s
  /\ rasp_command message_set [] (Z.of_nat d) s
     = rasp_reply message_set (Z.of_nat d) s.
Proof.
  intros Hlk. rewrite !rasp_command_run.
  rewrite (parse_day_arg_token d token Hlk). split; reflexivity.
Qed.

(** ** The week button *)

(** C10. A button press whose data starts with [week_] is handled by
    [week_callback]. Unless the data is exactly [week_1] it stores week 2
    for the invoking user and confirms week II; exactly [week_1] stores
    week 1 and confirms week I. *)
Theorem week_callback_other_data (today : Z) (u : Update)
    (store : gmap Z (gmap pystr Z)) (data : pystr) :
  payload u = CallbackQuery data ->
  startswith (utf8 "week_") data = true ->
  (data <> utf8 "week_1" ->
   process_update today u store =
   (<[user_id u := <[utf8 "week" := 2]> (default ∅ (store !! user_id u))]> store,
    [answer; edit_message_text (utf8 "Выбрана **II неделя**.") MARKDOWN],
    None))
  /\ (data = utf8 "week_1" ->
      process_update today u store =
      (<[user_id u := <[utf8 "week" := 1]> (default ∅ (store !! user_id u))]> store,
       [answer; edit_message_text (utf8 "Выбрана **I неделя**.") MARKDOWN],
       None))
  /\ (user_week (process_update today u store).1.1 (user_id u) = 1
      <-> data = utf8 "week_1")
  /\ (user_week (process_update today u store).1.1 (user_id u) = 2
      <-> data <> utf8 "week_1").
Proof.
  intros Hp Hm.
  pose proof (process_update_week_button today u store data Hp Hm) as Hrun.
  assert (user_week (process_update today u store).1.1 (user_id u)
          = if decide (data = utf8 "week_1") then 1 else 2) as Hweek.
  { rewrite Hrun. cbn [fst]. unfold user_week, get_user_week.
    rewrite lookup_insert_eq. cbn [from_option id]. rewrite lookup_insert_eq. reflexivity. }
  rewrite Hweek. clear Hweek.
  destruct (decide (data = utf8 "week_1")) as [Heq|Hne].
  - split; [contradiction |]. split; [intros _; exact Hrun |].
    split; split; try done.
  - split; [intros _; exact Hrun |]. split; [contradiction |].
    split; split; try done.
Qed.

(** ** Startup *)

(** C7. When the token variable is absent from the environment, or empty,
    [main] prints its two diagnostic lines and returns: it builds no
    application, registers no handler and does not enter polling. *)
Theorem main_without_token (environ : gmap pystr pystr) :
  environ !! utf8 "TELEGRAM_BOT_TOKEN" = None
  \/ environ !! utf8 "TELEGRAM_BOT_TOKEN" = Some [] ->
  main environ =
    [print (utf8 "Ошибка: нужен токен бота.");
     print (utf8 "Создай бота у @BotFather в Telegram и задай TELEGRAM_BOT_TOKEN в .env")]
  /\ (run_polling ∉ main environ)
  /\ (forall token, build_application token ∉ main environ)
  /\ (forall h, add_handler h ∉ main environ).
Proof.
  intros Habsent.
  assert (BOT_TOKEN environ = []) as Htok
      by (unfold BOT_TOKEN; destruct Habsent as [->| ->]; reflexivity).
  assert (main environ =
    [print (utf8 "Ошибка: нужен токен бота.");
     print (utf8 "Создай бота у @BotFather в Telegram и задай TELEGRAM_BOT_TOKEN в .env")])
    as Hmain by (unfold main; rewrite Htok; reflexivity).
  split; [exact Hmain |]. rewrite Hmain.
  repeat split; intros; rewrite !elem_of_cons, elem_of_nil; intros [|[|[]]]; discriminate.
Qed.

(** ** Further properties of the day parser *)

Lemma lstrip_app_spaces (ws s : pystr) :
  Forall (fun c => isspace c = true) ws -> lstrip (ws ++ s) = lstrip s.
Proof.
  induction 1 as [|c ws Hc _ IH]; [reflexivity |].
  simpl. rewrite Hc. exact IH.
Qed.

Lemma lstrip_spaces (ws : pystr) :
  Forall (fun c => isspace c = true) ws -> lstrip ws = [].
Proof.
  intros H. rewrite <- (app_nil_r ws). rewrite (lstrip_app_spaces ws [] H).
  reflexivity.
Qed.

Lemma lstrip_app_r (s ws : pystr) :
  Forall (fun c => isspace c = true) ws ->
  lstrip (s ++ ws) = lstrip s ++ ws
  \/ (lstrip s = [] /\ lstrip (s ++ ws) = []).
Proof.
  intros Hws. induction s as [|c s IH].
  - right. split; [reflexivity | apply lstrip_spaces, Hws].
  - simpl. destruct (isspace c); [exact IH | left; reflexivity].
Qed.

Lemma rstrip_app_spaces (s ws : pystr) :
  Forall (fun c => isspace c = true) ws -> rstrip (s ++ ws) = rstrip s.
Proof.
  intros Hws. unfold rstrip. rewrite rev_app_distr.
  rewrite (lstrip_app_spaces (rev ws) (rev s) (Forall_rev Hws)). reflexivity.
Qed.

Lemma strip_padding (ws1 s ws2 : pystr) :
  Forall (fun c => isspace c = true) ws1 ->
  Forall (fun c => isspace c = true) ws2 ->
  strip (ws1 ++ s ++ ws2) = strip s.
Proof.
  intros H1 H2. unfold strip. rewrite (lstrip_app_spaces ws1 _ H1).
  destruct (lstrip_app_r s ws2 H2) as [->|[Hs ->]].
  - apply rstrip_app_spaces, H2.
  - rewrite Hs. reflexivity.
Qed.

Lemma isspace_lower_char (c : N) : isspace (lower_char c) = isspace c.
Proof.
  unfold lower_char.
  destruct ((65 <=? c) && (c <=? 90))%N eqn:H1;
    [| destruct ((1040 <=? c) && (c <=? 1071))%N eqn:H2;
       [| destruct ((1024 <=? c) && (c <=? 1039))%N eqn:H3; [| reflexivity]]];
    match goal with
    | H : (_ && _)%bool = true |- _ =>
      apply andb_true_iff in H as [Ha Hb];
      apply N.leb_le in Ha; apply N.leb_le in Hb
    end;
    apply eq_true_iff_eq; unfold isspace;
    rewrite !orb_true_iff, !andb_true_iff, !N.leb_le, !N.eqb_eq; lia.
Qed.

Lemma lstrip_map_lower (s : pystr) :
  lstrip (map lower_char s) = map lower_char (lstrip s).
Proof.
  induction s as [|c s IH]; [reflexivity |].
  simpl. rewrite isspace_lower_char. destruct (isspace c); [exact IH | reflexivity].
Qed.

Lemma strip_map_lower (s : pystr) :
  strip (map lower_char s) = map lower_char (strip s).
Proof.
  unfold strip, rstrip.
  rewrite lstrip_map_lower, <- map_rev, lstrip_map_lower, map_rev. reflexivity.
Qed.

Lemma Forall_lstrip (P : N -> Prop) (s : pystr) :
  Forall P s -> Forall P (lstrip s).
Proof.
  induction 1 as [|c s Hc Hs IH]; [constructor |].
  simpl. destruct (isspace c); [exact IH | constructor; assumption].
Qed.

Lemma Forall_strip (P : N -> Prop) (s : pystr) :
  Forall P s -> Forall P (strip s).
Proof.
  intros H. unfold strip, rstrip.
  apply Forall_rev, Forall_lstrip, Forall_rev, Forall_lstrip, H.
Qed.

Lemma lower_from_blocks (before s : pystr) :
  Forall (fun c => latin_or_cyrillic c = true) s ->
  lower_from before s = map lower_char s.
Proof.
  intros H. revert before. induction H as [|c s Hc _ IH]; intros before.
  - reflexivity.
  - simpl. rewrite Hc, IH. reflexivity.
Qed.

(** X1. Whitespace around the argument does not matter to
    [parse_day_arg]. *)
Theorem parse_day_arg_ignores_padding (ws1 s ws2 : pystr) :
  Forall (fun c => isspace c = true) ws1 ->
  Forall (fun c => isspace c = true) ws2 ->
  parse_day_arg (Some (ws1 ++ s ++ ws2)) = parse_day_arg (Some s).
Proof.
  intros H1 H2. unfold parse_day_arg, or_empty. cbn [from_option id].
  rewrite (strip_padding ws1 s ws2 H1 H2). reflexivity.
Qed.

(** X2. On Basic Latin and Cyrillic text [parse_day_arg] does not see
    letter case: two arguments with the same lowercase letters parse
    alike. *)
Theorem parse_day_arg_ignores_case (v1 v2 : pystr) :
  Forall (fun c => latin_or_cyrillic c = true) v1 ->
  Forall (fun c => latin_or_cyrillic c = true) v2 ->
  map lower_char v1 = map lower_char v2 ->
  parse_day_arg (Some v1) = parse_day_arg (Some v2).
Proof.
  intros H1 H2 Heq. unfold parse_day_arg, or_empty, str_lower.
  cbn [from_option id].
  rewrite (lower_from_blocks [] (strip v1) (Forall_strip _ _ H1)).
  rewrite (lower_from_blocks [] (strip v2) (Forall_strip _ _ H2)).
  rewrite <- !strip_map_lower, Heq. reflexivity.
Qed.

Lemma USAGE_commands :
  Forall (fun t => contains (utf8 "/rasp " ++ t) USAGE = true) short.
Proof. repeat constructor. Qed.

(** X3. Each token of [short] parses to its own position, and the usage
    message of [rasp_command] spells the command with that token. *)
Theorem parse_day_arg_round_trip (d : nat) (token : pystr) :
  short !! d = Some token ->
  parse_day_arg (Some token) = Some (Z.of_nat d)
  /\ short !! Z.to_nat (Z.of_nat d) = Some token
  /\ contains (utf8 "/rasp " ++ token) USAGE = true.
Proof.
  intros Hlk. split; [exact (parse_day_arg_token d token Hlk) |].
  split; [rewrite Nat2Z.id; exact Hlk |].
  pose proof USAGE_commands as H. rewrite Forall_forall in H.
  apply H. eapply list_elem_of_lookup_2, Hlk.
Qed.

(** ** Further properties of the rasp handler *)

(** X4. With a first argument present, [rasp_command] looks at nothing
    else: the remaining arguments and the clock do not matter. *)
Theorem rasp_command_first_argument_only (message_set : bool) (arg0 : pystr)
    (rest : list pystr) (today today' : Z) (s : hstate) :
  rasp_command message_set (arg0 :: rest) today s
  = rasp_command message_set [arg0] today' s.
Proof. rewrite !rasp_command_run. reflexivity. Qed.

(** X5. [rasp_command] has no handler for an exception of
    [format_day_schedule]: when formatting the resolved day raises, the
    exception leaves the handler, nothing is sent and [user_data] is as
    before, on a new message and on an edited one alike. *)
Theorem rasp_command_raises (message_set : bool) (args : list pystr)
    (today day : Z) (s : hstate) (e : exn) :
  (args = [] /\ day = today)
  \/ (exists arg0 rest, args = arg0 :: rest /\ parse_day_arg (Some arg0) = Some day) ->
  format_day_schedule (get_user_week (user_data s)) day = Raise e ->
  rasp_command message_set args today s = (Raise e, s).
Proof.
  intros Hday Hraise. rewrite rasp_command_run.
  assert (rasp_reply message_set day s = (Raise e, s)) as Hreply
      by (unfold rasp_reply; rewrite Hraise; reflexivity).
  destruct Hday as [[-> ->]|[arg0 [rest [-> Hparse]]]].
  - exact Hreply.
  - rewrite Hparse. exact Hreply.
Qed.

(** ** Further properties of the formatter *)

Lemma Ok_inj {A} (a b : A) : Ok a = Ok b -> a = b.
Proof. intros [= ->]. reflexivity. Qed.

Lemma flat_map_contains (sep : pystr) (parts : list pystr) (x : pystr) :
  x ∈ parts ->
  exists pre post, flat_map (fun q => sep ++ q) parts = pre ++ x ++ post.
Proof.
  induction parts as [|p rest IH]; [intros H; inversion H |].
  rewrite elem_of_cons. intros [->|Hin]; cbn [flat_map].
  - exists sep, (flat_map (fun q => sep ++ q) rest).
    rewrite <- app_assoc. reflexivity.
  - destruct (IH Hin) as [pre [post ->]].
    exists ((sep ++ p) ++ pre), post. rewrite <- !app_assoc. reflexivity.
Qed.

Lemma str_join_contains (sep : pystr) (parts : list pystr) (x : pystr) :
  x ∈ parts -> contains x (str_join sep parts) = true.
Proof.
  intros Hin. apply contains_spec. destruct parts as [|p rest]; [inversion Hin |].
  apply elem_of_cons in Hin as [->|Hin]; unfold str_join.
  - exists [], (flat_map (fun q => sep ++ q) rest). reflexivity.
  - destruct (flat_map_contains sep rest x Hin) as [pre [post ->]].
    exists (p ++ pre), post. rewrite <- !app_assoc. reflexivity.
Qed.

Lemma contains_app_r (t pre s : pystr) :
  contains t s = true -> contains t (pre ++ s) = true.
Proof.
  rewrite !contains_spec. intros [p [q ->]].
  exists (pre ++ p), q. rewrite <- app_assoc. reflexivity.
Qed.

Lemma contains_trans (a b c : pystr) :
  contains a b = true -> contains b c = true -> contains a c = true.
Proof.
  rewrite !contains_spec. intros [p1 [q1 ->]] [p2 [q2 ->]].
  exists (p2 ++ p1), (q1 ++ q2). rewrite <- !app_assoc. reflexivity.
Qed.

(** X7. No lesson is left out: the text [format_day_schedule] returns
    contains the block of every entry of the slot, hence its time and its
    subject. *)
Theorem format_day_schedule_lists_every_lesson (week day : Z) (out : pystr)
    (i : nat) (time subject : pystr) :
  format_day_schedule week day = Ok out ->
  get_schedule week day !! i = Some (time, subject) ->
  contains (entry_block time subject) out = true
  /\ contains time out = true
  /\ contains subject out = true.
Proof.
  intros Hout Hi. unfold format_day_schedule in Hout.
  destruct (py_index DAY_NAMES day) as [day_name|]; [| discriminate].
  destruct (py_index DAY_NAMES_SHORT day) as [day_short|]; [| discriminate].
  cbn [mbind result_bind rbind] in Hout.
  destruct (get_schedule week day) as [|l ls] eqn:Hl; [discriminate Hi |].
  apply Ok_inj in Hout. subst out.
  assert (contains (entry_block time subject)
            (str_join (NL ++ NL) (map lesson_line (l :: ls))) = true) as Hblock.
  { apply str_join_contains. apply list_elem_of_fmap.
    exists (time, subject). split; [reflexivity |].
    eapply list_elem_of_lookup_2, Hi. }
  assert (forall t, contains t (entry_block time subject) = true ->
                    contains t (str_join (NL ++ NL) (map lesson_line (l :: ls)))
                    = true) as Hlift
      by (intros t Ht; exact (contains_trans _ _ _ Ht Hblock)).
  split; [| split]; apply contains_app_r, Hlift, contains_spec;
    unfold entry_block.
  - exists [], []. rewrite app_nil_r. reflexivity.
  - exists (utf8 "🕐 "), (NL ++ utf8 "   " ++ subject). reflexivity.
  - exists (utf8 "🕐 " ++ time ++ NL ++ utf8 "   "), [].
    rewrite app_nil_r, <- !app_assoc. reflexivity.
Qed.

(** X8. The text tells the weeks apart: for the same day, the text of
    week 1 differs from the text of any other week number, whatever the
    two slots hold. *)
Theorem format_day_schedule_weeks_differ (week day : Z) (out1 out2 : pystr) :
  week <> 1 ->
  format_day_schedule 1 day = Ok out1 ->
  format_day_schedule week day = Ok out2 ->
  out1 <> out2.
Proof.
  intros Hweek H1 H2 Heq. unfold format_day_schedule in H1, H2.
  destruct (py_index DAY_NAMES day) as [day_name|]; [| discriminate].
  destruct (py_index DAY_NAMES_SHORT day) as [day_short|]; [| discriminate].
  cbn [mbind result_bind rbind] in H1, H2.
  destruct (decide (week = 1)) as [|_]; [contradiction |].
  destruct (decide (1 = 1)) as [_|]; [| contradiction].
  change (utf8 "I") with [73%N] in H1.
  change (utf8 " неделя") with (32%N :: utf8 "неделя") in H1.
  change (utf8 "II") with [73%N; 73%N] in H2.
  assert (exists body1 body2,
             out1 = utf8 "📅 " ++ day_name ++ utf8 " (" ++ day_short ++ utf8 "), "
                    ++ [73%N] ++ (32%N :: utf8 "неделя") ++ NL ++ NL ++ body1
             /\ out2 = utf8 "📅 " ++ day_name ++ utf8 " (" ++ day_short ++ utf8 "), "
                       ++ [73%N; 73%N] ++ utf8 " неделя" ++ NL ++ NL ++ body2)
    as [body1 [body2 [-> ->]]].
  { destruct (get_schedule 1 day), (get_schedule week day);
      apply Ok_inj in H1; apply Ok_inj in H2; subst out1 out2;
      eexists _, _; (split; rewrite <- !app_assoc; reflexivity). }
  do 5 apply app_inv_head in Heq. discriminate Heq.
Qed.

(** ** Further properties of the week selection and of dispatch *)

(** X9. The last press of a week button wins: handling two presses of
    the same user leaves the store that the second press alone leaves. In
    particular pressing the same button twice is the same as pressing it
    once. *)
Theorem week_callback_last_press_wins (today1 today2 : Z) (u1 u2 : Update)
    (store : gmap Z (gmap pystr Z)) (data1 data2 : pystr) :
  user_id u1 = user_id u2 ->
  payload u1 = CallbackQuery data1 ->
  payload u2 = CallbackQuery data2 ->
  startswith (utf8 "week_") data1 = true ->
  startswith (utf8 "week_") data2 = true ->
  (process_update today2 u2 (process_update today1 u1 store).1.1).1.1
  = (process_update today2 u2 store).1.1.
Proof.
  intros Huid Hp1 Hp2 Hm1 Hm2.
  rewrite (process_update_week_button today1 u1 store data1 Hp1 Hm1).
  rewrite !(process_update_week_button today2 u2 _ data2 Hp2 Hm2).
  cbn [fst]. rewrite Huid, lookup_insert_eq. cbn [from_option id].
  rewrite !insert_insert_eq. reflexivity.
Qed.

Lemma process_update_start (today : Z) (u : Update)
    (store : gmap Z (gmap pystr Z)) (name : pystr) (args : list pystr) :
  payload u = Command name args ->
  str_lower name = utf8 "start" ->
  process_update today u store =
  (<[user_id u := default ∅ (store !! user_id u)]> store,
   [reply_text (start_text (first_name u) (user_week store (user_id u)))
      None MARKDOWN],
   None).
Proof.
  intros Hp Hname. unfold process_update.
  cbv [find handlers check_update]. rewrite Hp. cbv beta iota. rewrite Hname.
  rewrite bool_decide_true by reflexivity.
  cbv [handler_callback run_callback has_message]. rewrite Hp.
  cbv [start mbind M_bind read_user_data message_reply_text send user_data sent].
  reflexivity.
Qed.

(** X11. The greeting of start reports the week the user selected last:
    after a week button press of a user, the reply to that user's start
    command, sent as a new message and in any letter case, is the greeting
    for week 1 when the data was [week_1] and for week 2 otherwise, and
    handling start changes no stored week. *)
Theorem start_reports_selected_week (today1 today2 : Z) (u1 u2 : Update)
    (store : gmap Z (gmap pystr Z)) (data name : pystr) (args : list pystr) :
  user_id u1 = user_id u2 ->
  payload u1 = CallbackQuery data ->
  startswith (utf8 "week_") data = true ->
  payload u2 = Command name args ->
  str_lower name = utf8 "start" ->
  (process_update today2 u2 (process_update today1 u1 store).1.1).1.2
  = [reply_text
       (start_text (first_name u2)
          (if decide (data = utf8 "week_1") then 1 else 2))
       None MARKDOWN]
  /\ (forall uid,
        stored_week
          (process_update today2 u2 (process_update today1 u1 store).1.1).1.1 uid
        = stored_week (process_update today1 u1 store).1.1 uid).
Proof.
  intros Huid Hp1 Hm Hp2 Hname.
  rewrite (process_update_start today2 u2 _ name args Hp2 Hname). cbn [fst snd].
  split.
  - rewrite (process_update_week_button today1 u1 store data Hp1 Hm).
    cbn [fst]. unfold user_week, get_user_week.
    rewrite Huid, lookup_insert_eq. cbn [from_option id].
    rewrite lookup_insert_eq. reflexivity.
  - intros uid. destruct (decide (uid = user_id u2)) as [->|Hne].
    + apply stored_week_insert_same.
    + unfold stored_week. rewrite lookup_insert_ne by congruence. reflexivity.
Qed.

(** X12. The week menu and the button handler agree: on a new message
    [week_command] sends one message with a keyboard (on an update without
    one it raises [AttributeError] and sends nothing), and every button of
    that keyboard carries data the registered pattern accepts, stores the
    week its label names (I for 1, II for 2) when pressed, and is
    confirmed with that label. *)
Theorem week_command_buttons_select_their_week (s : hstate) :
  exists text keyboard,
    week_command true s =
      (Ok tt, HState (user_data s)
                (sent s ++ [reply_text text (Some keyboard) MARKDOWN]))
    /\ week_command false s = (Raise AttributeError, s)
    /\ contains (str_int (get_user_week (user_data s))) text = true
    /\ Forall
         (fun b =>
            let 'InlineKeyboardButton label data := b in
            exists roman w,
              (roman = utf8 "I" /\ w = 1 \/ roman = utf8 "II" /\ w = 2)
              /\ label = roman ++ utf8 " неделя"
              /\ forall today u store,
                   payload u = CallbackQuery data ->
                   process_update today u store =
                   (<[user_id u :=
                        <[utf8 "week" := w]> (default ∅ (store !! user_id u))]>
                      store,
                    [answer;
                     edit_message_text
                       (utf8 "Выбрана **" ++ roman ++ utf8 " неделя**.")
                       MARKDOWN],
                    None))
         (concat keyboard).
Proof.
  destruct s as [ud out]. eexists _, _. split; [| split; [| split]].
  - cbv [week_command mbind M_bind read_user_data message_reply_text send
           user_data sent].
    reflexivity.
  - reflexivity.
  - cbn [user_data]. apply contains_spec.
    exists (utf8 "Сейчас выбрана: **"),
      (utf8 " неделя**." ++ NL ++ utf8 "Выбери неделю:").
    reflexivity.
  - cbn [concat app]. constructor; [| constructor; [| constructor]].
    + exists (utf8 "I"), 1. split; [left; split; reflexivity |].
      split; [reflexivity |]. intros today u store Hp.
      exact (process_update_week_button today u store (utf8 "week_1") Hp eq_refl).
    + exists (utf8 "II"), 2. split; [right; split; reflexivity |].
      split; [reflexivity |]. intros today u store Hp.
      exact (process_update_week_button today u store (utf8 "week_2") Hp eq_refl).
Qed.

(** X13. [main] enters polling exactly when the token is non-empty, and
    then it builds the application once, first and with exactly that
    token, registers exactly the handlers of [handlers], and polls once,
    last. *)
Theorem main_polls_iff_token (environ : gmap pystr pystr) :
  (run_polling ∈ main environ <-> BOT_TOKEN environ <> [])
  /\ (forall token,
        build_application token ∈ main environ
        <-> token = BOT_TOKEN environ /\ token <> [])
  /\ (forall h,
        add_handler h ∈ main environ <-> h ∈ handlers /\ BOT_TOKEN environ <> [])
  /\ (BOT_TOKEN environ <> [] ->
      exists middle,
        main environ
        = build_application (BOT_TOKEN environ) :: middle ++ [run_polling]
        /\ (run_polling ∉ middle)
        /\ (forall token, build_application token ∉ middle)).
Proof.
  unfold main. destruct (BOT_TOKEN environ) as [|c token] eqn:Htok; cbn [truthy negb].
  - split; [| split; [| split]].
    + rewrite !elem_of_cons, elem_of_nil. split; [intros [|[|[]]]; discriminate | congruence].
    + intros t. rewrite !elem_of_cons, elem_of_nil.
      split; [intros [|[|[]]]; discriminate | intros [-> H]; congruence].
    + intros h. rewrite !elem_of_cons, elem_of_nil.
      split; [intros [|[|[]]]; discriminate | intros [_ H]; congruence].
    + congruence.
  - split; [| split; [| split]].
    + split; [discriminate |]. intros _.
      rewrite elem_of_cons, elem_of_app, !elem_of_cons. auto.
    + intros t. rewrite elem_of_cons, elem_of_app, list_elem_of_fmap, !elem_of_cons,
        elem_of_nil. split.
      * intros [[= ->]|[[h [H _]]|[H|[H|[]]]]]; try discriminate H.
        split; [reflexivity | discriminate].
      * intros [-> _]. left. reflexivity.
    + intros h. rewrite elem_of_cons, elem_of_app, list_elem_of_fmap, !elem_of_cons,
        elem_of_nil. split.
      * intros [H|[[h' [[= ->] Hin]]|[H|[H|[]]]]]; try discriminate H.
        split; [exact Hin | discriminate].
      * intros [Hin _]. right. left. exists h. split; [reflexivity | exact Hin].
    + intros _.
      exists (map add_handler handlers ++ [print (utf8 "Бот запущен. Остановка: Ctrl+C")]).
      split; [rewrite <- app_assoc; reflexivity |].
      split; [| intros t]; rewrite elem_of_app, list_elem_of_fmap, list_elem_of_singleton;
        intros [[h [H _]]|H]; discriminate H.
Qed.

(** X14. On a new message [help_command] sends the same text whatever
    the state and writes nothing (on an update without one it raises
    [AttributeError] and sends nothing), and the text names every command
    [main] registers a handler for. *)
Theorem help_command_lists_registered_commands (s : hstate) :
  help_command true s =
    (Ok tt, HState (user_data s)
              (sent s ++ [reply_text help_text None MARKDOWN]))
  /\ help_command false s = (Raise AttributeError, s)
  /\ (forall command cb,
        CommandHandler command cb ∈ handlers ->
        contains (utf8 "/" ++ command) help_text = true).
Proof.
  split; [| split].
  - destruct s as [ud out]. reflexivity.
  - reflexivity.
  - intros command cb. unfold handlers.
    rewrite !elem_of_cons, elem_of_nil.
    intros [H|[H|[H|[H|[H|[]]]]]]; try discriminate H;
      injection H as -> _; reflexivity.
Qed.

Lemma find_rasp (u : Update) (name : pystr) (args : list pystr) :
  payload u = Command name args \/ payload u = EditedCommand name args ->
  str_lower name = utf8 "rasp" ->
  find (check_update u) handlers
  = Some (CommandHandler (utf8 "rasp") cb_rasp_command).
Proof.
  intros [Hp|Hp] Hname; cbv [find handlers check_update]; rewrite Hp;
    cbv beta iota; rewrite Hname; reflexivity.
Qed.

(** X15. The rasp handler uses the week selected last: after a week
    button press of a user, that user's rasp command with the [d]-th
    token, sent as a new message and in any letter case, is answered with
    [format_day_schedule] of week 1 when the data was [week_1] and of week
    2 otherwise, for day [d]; if formatting raises, nothing is sent. *)
Theorem rasp_uses_selected_week (today1 today2 : Z) (u1 u2 : Update)
    (store : gmap Z (gmap pystr Z)) (data name token : pystr)
    (rest : list pystr) (d : nat) :
  user_id u1 = user_id u2 ->
  payload u1 = CallbackQuery data ->
  startswith (utf8 "week_") data = true ->
  payload u2 = Command name (token :: rest) ->
  str_lower name = utf8 "rasp" ->
  short !! d = Some token ->
  (process_update today2 u2 (process_update today1 u1 store).1.1).1.2
  = match format_day_schedule (if decide (data = utf8 "week_1") then 1 else 2)
            (Z.of_nat d) with
    | Ok text => [reply_text text None None]
    | Raise _ => []
    end.
Proof.
  intros Huid Hp1 Hm Hp2 Hname Hlk.
  rewrite (process_update_week_button today1 u1 store data Hp1 Hm). cbn [fst].
  unfold process_update at 1. rewrite (find_rasp u2 name _ (or_introl Hp2) Hname).
  cbv [handler_callback run_callback has_message]. rewrite Hp2, rasp_command_run.
  rewrite (parse_day_arg_token d token Hlk). unfold rasp_reply. cbn [user_data sent].
  rewrite Huid, lookup_insert_eq. cbn [from_option id].
  unfold get_user_week. rewrite lookup_insert_eq. cbn [from_option id].
  destruct (format_day_schedule (if decide (data = utf8 "week_1") then 1 else 2)
              (Z.of_nat d)); reflexivity.
Qed.

(** X16. A command that arrives as the edit of a message is handled but
    never answered: [update.message] is [None] there, so [start] raises
    [AttributeError], and [rasp_command] raises too ([AttributeError], or
    the exception of [format_day_schedule] when formatting the resolved
    day fails first); nothing is sent and [user_data] is as before. At
    dispatch the edited rasp command leaves every stored week as it was
    and sends nothing. *)
Theorem edited_command_not_answered (name : pystr) (args : list pystr)
    (today : Z) (s : hstate) (u : Update) (store : gmap Z (gmap pystr Z)) :
  payload u = EditedCommand name args ->
  str_lower name = utf8 "rasp" ->
  start false (first_name u) s = (Raise AttributeError, s)
  /\ (exists e,
        rasp_command false args today s = (Raise e, s)
        /\ (e = AttributeError
            \/ exists day,
                 format_day_schedule (get_user_week (user_data s)) day = Raise e))
  /\ (process_update today u store).1.2 = []
  /\ is_Some (process_update today u store).2
  /\ (forall uid,
        stored_week (process_update today u store).1.1 uid
        = stored_week store uid).
Proof.
  intros Hp Hname.
  assert (forall s', exists e,
             rasp_command false args today s' = (Raise e, s')
             /\ (e = AttributeError
                 \/ exists day,
                      format_day_schedule (get_user_week (user_data s')) day
                      = Raise e)) as Hrasp.
  { intros s'. rewrite rasp_command_run.
    assert (forall day, exists e,
               rasp_reply false day s' = (Raise e, s')
               /\ (e = AttributeError
                   \/ exists day',
                        format_day_schedule (get_user_week (user_data s')) day'
                        = Raise e)) as Hreply.
    { intros day. unfold rasp_reply.
      destruct (format_day_schedule (get_user_week (user_data s')) day) as [text|e]
        eqn:Hfmt.
      - exists AttributeError. split; [reflexivity | left; reflexivity].
      - exists e. split; [reflexivity | right; exists day; exact Hfmt]. }
    destruct args as [|arg0 rest]; [apply Hreply |].
    destruct (parse_day_arg (Some arg0)) as [day|]; [apply Hreply |].
    exists AttributeError. split; [reflexivity | left; reflexivity]. }
  split; [destruct s; reflexivity |].
  split; [apply Hrasp |].
  unfold process_update.
  rewrite (find_rasp u name args (or_intror Hp) Hname).
  cbv [handler_callback run_callback has_message]. rewrite Hp.
  destruct (Hrasp (HState (default ∅ (store !! user_id u)) [])) as [e [-> _]].
  cbn [fst snd user_data sent].
  split; [reflexivity |]. split; [eauto |].
  intros uid. destruct (decide (uid = user_id u)) as [->|Hne].
  - apply stored_week_insert_same.
  - unfold stored_week. rewrite lookup_insert_ne by congruence. reflexivity.
Qed.

End Bot.

(** ** The definitions run on concrete inputs *)

Example parse_day_arg_padded_upper :
  parse_day_arg sample_unicode_lower (Some (utf8 "  ПН ")) = Some 0
  /\ parse_day_arg sample_unicode_lower (Some (utf8 "Вс" ++ NL)) = Some 6.
Proof. split; reflexivity. Qed.

Example parse_day_arg_no_partial_match :
  parse_day_arg sample_unicode_lower (Some (utf8 "п")) = None
  /\ parse_day_arg sample_unicode_lower (Some (utf8 "пнд")) = None
  /\ parse_day_arg sample_unicode_lower (Some (utf8 "п н")) = None
  /\ parse_day_arg sample_unicode_lower (Some (utf8 "хд")) = None.
Proof. repeat split; reflexivity. Qed.

Example format_day_schedule_monday :
  format_day_schedule sample_get_schedule sample_DAY_NAMES
    sample_DAY_NAMES_SHORT 1 0
  = Ok (utf8 "📅 Понедельник (Пн), I неделя" ++ NL ++ NL
        ++ utf8 "🕐 09:00" ++ NL ++ utf8 "   Математика" ++ NL ++ NL
        ++ utf8 "🕐 10:45" ++ NL ++ utf8 "   Физика").
Proof. vm_compute. reflexivity. Qed.

Example format_day_schedule_free_day :
  format_day_schedule sample_get_schedule sample_DAY_NAMES
    sample_DAY_NAMES_SHORT 2 6
  = Ok (utf8 "📅 Воскресенье (Вс), II неделя" ++ NL ++ NL
        ++ utf8 "Занятий нет.").
Proof. vm_compute. reflexivity. Qed.

Example format_day_schedule_day_out_of_range :
  format_day_schedule sample_get_schedule sample_DAY_NAMES
    sample_DAY_NAMES_SHORT 1 7 = Raise IndexError.
Proof. vm_compute. reflexivity. Qed.

(** A fresh user opens the week menu, picks week II and asks for Monday:
    the reply is Monday of week 2, and user 7 still has week 2 stored. *)
Example fresh_user_picks_week_two :
  let run := process_update sample_unicode_lower sample_get_schedule
               sample_DAY_NAMES sample_DAY_NAMES_SHORT in
  let s1 := (run 4 (MkUpdate 42 (utf8 "Аня") (Command (utf8 "week") []))
               sample_store).1.1 in
  let s2 := (run 4 (sample_press (utf8 "week_2")) s1).1.1 in
  run 4 (MkUpdate 42 (utf8 "Аня") (Command (utf8 "rasp") [utf8 "ср"])) s2
  = (s2,
     [reply_text (utf8 "📅 Среда (Ср), II неделя" ++ NL ++ NL
                  ++ utf8 "🕐 12:30" ++ NL ++ utf8 "   История") None None],
     None)
  /\ stored_week s2 42 = Some 2 /\ stored_week s2 7 = Some 2
  /\ stored_week s1 42 = None.
Proof. vm_compute. repeat split; reflexivity. Qed.

(** An update no registered handler takes changes nothing. *)
Example unhandled_update :
  process_update sample_unicode_lower sample_get_schedule sample_DAY_NAMES
    sample_DAY_NAMES_SHORT 4 (sample_press (utf8 "day_1")) sample_store
  = (sample_store, [], None).
Proof. reflexivity. Qed.

(** A command in capital letters is taken like the lowercase one. *)
Example uppercase_command_is_handled :
  process_update sample_unicode_lower sample_get_schedule sample_DAY_NAMES
    sample_DAY_NAMES_SHORT 4
    (MkUpdate 42 (utf8 "Аня") (Command (utf8 "RASP") [utf8 "ВС"])) sample_store
  = (<[42 := ∅]> sample_store,
     [reply_text (utf8 "📅 Воскресенье (Вс), I неделя" ++ NL ++ NL
                  ++ utf8 "Занятий нет.") None None],
     None).
Proof. vm_compute. reflexivity. Qed.

(** A button press without data goes to [week_callback] and stores
    week 2. *)
Example press_without_data :
  stored_week
    (process_update sample_unicode_lower sample_get_schedule sample_DAY_NAMES
       sample_DAY_NAMES_SHORT 4 (sample_press []) sample_store).1.1 42
  = Some 2.
Proof. vm_compute. reflexivity. Qed.

(** ** Witnesses and counterexamples *)


Lemma format_day_schedule_names_week_witness :
  exists out day_name day_short week_label body,
    format_day_schedule sample_get_schedule sample_DAY_NAMES
      sample_DAY_NAMES_SHORT 2 2 = Ok out
    /\ py_index sample_DAY_NAMES 2 = Ok day_name
    /\ py_index sample_DAY_NAMES_SHORT 2 = Ok day_short
    /\ (2 = 1 -> week_label = utf8 "I")
    /\ (2 = 2 -> week_label = utf8 "II")
    /\ out = header_line day_name day_short week_label ++ body
    /\ contains day_name out = true
    /\ contains day_short out = true
    /\ contains week_label out = true.
Proof.
  apply (format_day_schedule_names_week sample_get_schedule sample_DAY_NAMES
           sample_DAY_NAMES_SHORT 2 2).
  - simpl. lia.
  - simpl. lia.
  - right. reflexivity.
  - lia.
Defined.

Lemma format_day_schedule_layout_witness :
  exists week_label,
    (1 = 1 -> week_label = utf8 "I")
    /\ (1 = 2 -> week_label = utf8 "II")
    /\ (sample_get_schedule 1 0 = [] ->
        format_day_schedule sample_get_schedule sample_DAY_NAMES
          sample_DAY_NAMES_SHORT 1 0 =
        Ok (header_line (utf8 "Понедельник") (utf8 "Пн") week_label
            ++ utf8 "Занятий нет."))
    /\ (sample_get_schedule 1 0 <> [] ->
        exists blocks : list pystr,
          length blocks = length (sample_get_schedule 1 0)
          /\ (forall (i : nat) (time subject : pystr),
                 sample_get_schedule 1 0 !! i = Some (time, subject) ->
                 blocks !! i = Some (entry_block time subject))
          /\ format_day_schedule sample_get_schedule sample_DAY_NAMES
               sample_DAY_NAMES_SHORT 1 0 =
             Ok (header_line (utf8 "Понедельник") (utf8 "Пн") week_label
                 ++ blank_line_separated blocks)).
Proof.
  apply (format_day_schedule_layout sample_get_schedule sample_DAY_NAMES
           sample_DAY_NAMES_SHORT 1 0 (utf8 "Понедельник") (utf8 "Пн")).
  - left. reflexivity.
  - lia.
  - reflexivity.
  - reflexivity.
Defined.

Lemma week_selection_per_user_witness :
  (forall uid, stored_week sample_store uid = None ->
               user_week sample_store uid = 1)
  /\ user_week
       (process_update sample_unicode_lower sample_get_schedule
          sample_DAY_NAMES sample_DAY_NAMES_SHORT 3
          (sample_press (utf8 "week_2")) sample_store).1.1 42 = 2
  /\ (forall uid, uid <> 42 ->
        (process_update sample_unicode_lower sample_get_schedule
           sample_DAY_NAMES sample_DAY_NAMES_SHORT 3
           (sample_press (utf8 "week_2")) sample_store).1.1 !! uid
        = sample_store !! uid
        /\ stored_week
             (process_update sample_unicode_lower sample_get_schedule
                sample_DAY_NAMES sample_DAY_NAMES_SHORT 3
                (sample_press (utf8 "week_2")) sample_store).1.1 uid
           = stored_week sample_store uid
        /\ user_week
             (process_update sample_unicode_lower sample_get_schedule
                sample_DAY_NAMES sample_DAY_NAMES_SHORT 3
                (sample_press (utf8 "week_2")) sample_store).1.1 uid
           = user_week sample_store uid).
Proof.
  apply (week_selection_per_user sample_unicode_lower sample_get_schedule
           sample_DAY_NAMES sample_DAY_NAMES_SHORT 3
           (sample_press (utf8 "week_2")) sample_store (utf8 "week_2") 2).
  - reflexivity.
  - right. split; reflexivity.
Defined.


Lemma rasp_today_same_as_token_witness :
  rasp_command sample_unicode_lower sample_get_schedule sample_DAY_NAMES
    sample_DAY_NAMES_SHORT true [] (Z.of_nat 2) sample_state
  = rasp_command sample_unicode_lower sample_get_schedule sample_DAY_NAMES
      sample_DAY_NAMES_SHORT true [utf8 "ср"] 5 sample_state.
Proof.
  apply (rasp_today_same_as_token sample_unicode_lower sample_get_schedule
           sample_DAY_NAMES sample_DAY_NAMES_SHORT true 2 (utf8 "ср") 5
           sample_state).
  reflexivity.
Defined.

Lemma week_callback_other_data_witness :
  process_update sample_unicode_lower sample_get_schedule sample_DAY_NAMES
    sample_DAY_NAMES_SHORT 3 (sample_press (utf8 "week_x")) sample_store
  = (<[user_id (sample_press (utf8 "week_x")) :=
         <[utf8 "week" := 2]>
           (default ∅ (sample_store !! user_id (sample_press (utf8 "week_x"))))]>
       sample_store,
     [answer; edit_message_text (utf8 "Выбрана **II неделя**.") MARKDOWN],
     None).
Proof.
  refine (proj1 (week_callback_other_data sample_unicode_lower
                   sample_get_schedule sample_DAY_NAMES sample_DAY_NAMES_SHORT 3
                   (sample_press (utf8 "week_x")) sample_store (utf8 "week_x")
                   _ _) _).
  - reflexivity.
  - reflexivity.
  - vm_compute. discriminate.
Defined.

Lemma main_without_token_witness :
  main ∅ =
    [print (utf8 "Ошибка: нужен токен бота.");
     print (utf8 "Создай бота у @BotFather в Telegram и задай TELEGRAM_BOT_TOKEN в .env")]
  /\ (run_polling ∉ main ∅)
  /\ (forall token, build_application token ∉ main ∅)
  /\ (forall h, add_handler h ∉ main ∅).
Proof.
  apply (main_without_token ∅). left. reflexivity.
Defined.

(** ** Witnesses of the further properties *)

Lemma parse_day_arg_ignores_padding_witness :
  parse_day_arg sample_unicode_lower (Some (utf8 "  " ++ utf8 "Вт" ++ NL))
  = parse_day_arg sample_unicode_lower (Some (utf8 "Вт")).
Proof.
  apply (parse_day_arg_ignores_padding sample_unicode_lower
           (utf8 "  ") (utf8 "Вт") NL); repeat constructor.
Defined.

Lemma parse_day_arg_ignores_case_witness :
  parse_day_arg sample_unicode_lower (Some (utf8 "Чт"))
  = parse_day_arg sample_unicode_lower (Some (utf8 "чТ")).
Proof.
  apply (parse_day_arg_ignores_case sample_unicode_lower (utf8 "Чт") (utf8 "чТ"));
    [repeat constructor | repeat constructor | reflexivity].
Defined.

Lemma parse_day_arg_round_trip_witness :
  parse_day_arg sample_unicode_lower (Some (utf8 "пт")) = Some (Z.of_nat 4)
  /\ short !! Z.to_nat (Z.of_nat 4) = Some (utf8 "пт")
  /\ contains (utf8 "/rasp " ++ utf8 "пт") USAGE = true.
Proof.
  apply (parse_day_arg_round_trip sample_unicode_lower 4 (utf8 "пт")).
  reflexivity.
Defined.

Lemma rasp_command_raises_witness :
  rasp_command sample_unicode_lower sample_get_schedule other_DAY_NAMES
    other_DAY_NAMES_SHORT true [] 3 sample_state
  = (Raise IndexError, sample_state).
Proof.
  apply (rasp_command_raises sample_unicode_lower sample_get_schedule
           other_DAY_NAMES other_DAY_NAMES_SHORT true [] 3 3 sample_state
           IndexError).
  - left. split; reflexivity.
  - reflexivity.
Defined.

Lemma format_day_schedule_lists_every_lesson_witness :
  contains (entry_block (utf8 "10:45") (utf8 "Физика"))
    (utf8 "📅 Понедельник (Пн), I неделя" ++ NL ++ NL
     ++ utf8 "🕐 09:00" ++ NL ++ utf8 "   Математика" ++ NL ++ NL
     ++ utf8 "🕐 10:45" ++ NL ++ utf8 "   Физика") = true
  /\ contains (utf8 "10:45")
       (utf8 "📅 Понедельник (Пн), I неделя" ++ NL ++ NL
        ++ utf8 "🕐 09:00" ++ NL ++ utf8 "   Математика" ++ NL ++ NL
        ++ utf8 "🕐 10:45" ++ NL ++ utf8 "   Физика") = true
  /\ contains (utf8 "Физика")
       (utf8 "📅 Понедельник (Пн), I неделя" ++ NL ++ NL
        ++ utf8 "🕐 09:00" ++ NL ++ utf8 "   Математика" ++ NL ++ NL
        ++ utf8 "🕐 10:45" ++ NL ++ utf8 "   Физика") = true.
Proof.
  apply (format_day_schedule_lists_every_lesson sample_get_schedule
           sample_DAY_NAMES sample_DAY_NAMES_SHORT 1 0 _ 1%nat).
  - vm_compute. reflexivity.
  - reflexivity.
Defined.

Lemma format_day_schedule_weeks_differ_witness :
  utf8 "📅 Понедельник (Пн), I неделя" ++ NL ++ NL
  ++ utf8 "🕐 09:00" ++ NL ++ utf8 "   Математика" ++ NL ++ NL
  ++ utf8 "🕐 10:45" ++ NL ++ utf8 "   Физика"
  <> utf8 "📅 Понедельник (Пн), II неделя" ++ NL ++ NL ++ utf8 "Занятий нет.".
Proof.
  apply (format_day_schedule_weeks_differ sample_get_schedule sample_DAY_NAMES
           sample_DAY_NAMES_SHORT 2 0).
  - lia.
  - vm_compute. reflexivity.
  - vm_compute. reflexivity.
Defined.

Lemma week_callback_last_press_wins_witness :
  (process_update sample_unicode_lower sample_get_schedule sample_DAY_NAMES
     sample_DAY_NAMES_SHORT 5 (sample_press (utf8 "week_2"))
     (process_update sample_unicode_lower sample_get_schedule sample_DAY_NAMES
        sample_DAY_NAMES_SHORT 4 (sample_press (utf8 "week_1"))
        sample_store).1.1).1.1
  = (process_update sample_unicode_lower sample_get_schedule sample_DAY_NAMES
       sample_DAY_NAMES_SHORT 5 (sample_press (utf8 "week_2")) sample_store).1.1.
Proof.
  apply (week_callback_last_press_wins sample_unicode_lower sample_get_schedule
           sample_DAY_NAMES sample_DAY_NAMES_SHORT 4 5
           (sample_press (utf8 "week_1")) (sample_press (utf8 "week_2"))
           sample_store (utf8 "week_1") (utf8 "week_2")); reflexivity.
Defined.

Lemma start_reports_selected_week_witness :
  (process_update sample_unicode_lower sample_get_schedule sample_DAY_NAMES
     sample_DAY_NAMES_SHORT 5
     (MkUpdate 42 (utf8 "Аня") (Command (utf8 "start") []))
     (process_update sample_unicode_lower sample_get_schedule sample_DAY_NAMES
        sample_DAY_NAMES_SHORT 4 (sample_press (utf8 "week_2"))
        sample_store).1.1).1.2
  = [reply_text
       (start_text (first_name (MkUpdate 42 (utf8 "Аня") (Command (utf8 "start") [])))
          (if decide (utf8 "week_2" = utf8 "week_1") then 1 else 2))
       None MARKDOWN].
Proof.
  apply (start_reports_selected_week sample_unicode_lower sample_get_schedule
           sample_DAY_NAMES sample_DAY_NAMES_SHORT 4 5
           (sample_press (utf8 "week_2"))
           (MkUpdate 42 (utf8 "Аня") (Command (utf8 "start") []))
           sample_store (utf8 "week_2") (utf8 "start") []); reflexivity.
Defined.

Lemma rasp_uses_selected_week_witness :
  (process_update sample_unicode_lower sample_get_schedule sample_DAY_NAMES
     sample_DAY_NAMES_SHORT 5
     (MkUpdate 42 (utf8 "Аня") (Command (utf8 "rasp") [utf8 "ср"]))
     (process_update sample_unicode_lower sample_get_schedule sample_DAY_NAMES
        sample_DAY_NAMES_SHORT 4 (sample_press (utf8 "week_2"))
        sample_store).1.1).1.2
  = match format_day_schedule sample_get_schedule sample_DAY_NAMES
            sample_DAY_NAMES_SHORT
            (if decide (utf8 "week_2" = utf8 "week_1") then 1 else 2)
            (Z.of_nat 2) with
    | Ok text => [reply_text text None None]
    | Raise _ => []
    end.
Proof.
  apply (rasp_uses_selected_week sample_unicode_lower sample_get_schedule
           sample_DAY_NAMES sample_DAY_NAMES_SHORT 4 5
           (sample_press (utf8 "week_2"))
           (MkUpdate 42 (utf8 "Аня") (Command (utf8 "rasp") [utf8 "ср"]))
           sample_store (utf8 "week_2") (utf8 "rasp") (utf8 "ср") [] 2);
    reflexivity.
Defined.

Lemma edited_command_not_answered_witness :
  start false (first_name (MkUpdate 42 (utf8 "Аня")
                             (EditedCommand (utf8 "Rasp") [utf8 "ср"])))
    sample_state
  = (Raise AttributeError, sample_state)
  /\ (process_update sample_unicode_lower sample_get_schedule sample_DAY_NAMES
        sample_DAY_NAMES_SHORT 4
        (MkUpdate 42 (utf8 "Аня") (EditedCommand (utf8 "Rasp") [utf8 "ср"]))
        sample_store).1.2 = [].
Proof.
  pose proof (edited_command_not_answered sample_unicode_lower
                sample_get_schedule sample_DAY_NAMES sample_DAY_NAMES_SHORT
                (utf8 "Rasp") [utf8 "ср"] 4 sample_state
                (MkUpdate 42 (utf8 "Аня") (EditedCommand (utf8 "Rasp") [utf8 "ср"]))
                sample_store eq_refl eq_refl) as H.
  exact (conj (proj1 H) (proj1 (proj2 (proj2 H)))).
Defined.
